(** * Coherent alias sampling: the state preparation gate

    A shallow embedding of [qualtran/bloqs/state_preparation.py] and the
    properties its specification states about it: the register layout of
    [StatePreparationAliasSampling], its value equality, the factory
    [from_lcu_probs] and the five-step generator [decompose_from_registers].

    Python integers are [Z]; the keyword dictionary [**quregs] is a
    [gmap string (list Qid)]; a generator is a finite trace of yielded items
    that ends by returning or by raising. *)

From Stdlib Require Import ZArith QArith Lia.
From stdpp Require Import base decidable list list_numbers strings gmap.

Local Open Scope Z_scope.

(** ** Python and numpy values *)

(** [int.bit_length]: the number of bits of the absolute value. *)
Definition bit_length (x : Z) : Z :=
  if Z.abs x =? 0 then 0 else Z.log2 (Z.abs x) + 1.

(** [ceil(log2(L))] as the specification writes it, for [L >= 1]. *)
Definition ceil_log2 (L : Z) : Z := Z.log2_up L.

(** The exceptions that can leave the code of the file: the dictionary and
    tuple accesses of [decompose_from_registers] raise [KeyError] and
    [IndexError]; anything raised by code outside the file is [Foreign]. *)
Inductive exn : Type :=
  | KeyError (key : string)
  | IndexError
  | Foreign (what : string).

#[global] Instance exn_eq_dec : EqDecision exn.
Proof. solve_decision. Defined.

(** A numpy integer array: its shape and its elements in row-major order,
    which is what [ravel] returns. *)
Record NDArray : Type := { shape : list nat; ravel : list Z }.

#[global] Instance NDArray_eq_dec : EqDecision NDArray.
Proof. solve_decision. Defined.

(** [np.array] of a flat Python list. *)
Definition np_array (l : list Z) : NDArray :=
  {| shape := [length l]; ravel := l |}.

Fixpoint Zsum (l : list Z) : Z :=
  match l with
  | [] => 0
  | x :: l' => x + Zsum l'
  end.

(** ** Registers *)

Record Register : Type := { name : string; bitsize : Z }.

(** [SelectionRegister] extends [Register] with the number of values the
    register iterates over. *)
Record SelectionRegister : Type :=
  { register :> Register; iteration_length : Z }.

Definition SelectionRegister_ (n : string) (b L : Z) : SelectionRegister :=
  {| register := {| name := n; bitsize := b |}; iteration_length := L |}.

#[global] Instance Register_eq_dec : EqDecision Register.
Proof. solve_decision. Defined.

#[global] Instance SelectionRegister_eq_dec : EqDecision SelectionRegister.
Proof. solve_decision. Defined.

(** Modelled from the spec: [total_bits] of [qualtran._infra.gate_with_registers]
    is imported by the file and not defined in it; it is "the total bits of
    the selection registers", the sum of the widths of the registers given. *)
Definition total_bits (registers : list Register) : Z :=
  Zsum (bitsize <$> registers).

(** Modelled from the spec: [Signature.build] is imported by the file and not
    defined in it; it turns each keyword [name=width] into the descriptor of
    a register of that name and width, in the order written (section 4.2:
    "JunkDescriptors(sigma_mu=mu, alt=ceil(log2(L)), keep=mu, flag=1)"). *)
Definition Signature_build (registers : list (string * Z)) : list Register :=
  (fun kv => {| name := kv.1; bitsize := kv.2 |}) <$> registers.

(** ** Generators *)

(** A generator body that yields values of [Y], may raise an [exn], and
    otherwise returns an [A].  The order of the constructors in a term is
    the order in which a consumer calling [next] observes the events. *)
Inductive Gen (Y A : Type) : Type :=
  | Return (a : A)
  | Raise (e : exn)
  | Yield (y : Y) (k : Gen Y A).

Arguments Return {Y A} a.
Arguments Raise {Y A} e.
Arguments Yield {Y A} y k.

Fixpoint Gen_bind {Y A B} (f : A -> Gen Y B) (m : Gen Y A) : Gen Y B :=
  match m with
  | Return a => f a
  | Raise e => Raise e
  | Yield y k => Yield y (Gen_bind f k)
  end.

#[global] Instance Gen_ret {Y} : MRet (Gen Y) := fun _ a => Return a.
#[global] Instance Gen_mbind {Y} : MBind (Gen Y) := fun _ _ f m => Gen_bind f m.

Definition yield {Y} (y : Y) : Gen Y unit := Yield y (Return tt).

(** What a consumer that drains the generator has received, and how the
    generator ended: [None] for a normal end, [Some e] when it raised. *)
Fixpoint yielded {Y A} (g : Gen Y A) : list Y :=
  match g with
  | Yield y k => y :: yielded k
  | _ => []
  end.

Fixpoint raised {Y A} (g : Gen Y A) : option exn :=
  match g with
  | Return _ => None
  | Raise e => Some e
  | Yield _ k => raised k
  end.

(** ** Operations on qubits *)

Inductive Qid : Type := NamedQubit (label : nat).

#[global] Instance Qid_eq_dec : EqDecision Qid.
Proof. solve_decision. Defined.

(** The gates the file instantiates, with the arguments it passes to their
    constructors. *)
Inductive Gate : Type :=
  | PrepareUniformSuperposition (n : Z)
  | H
  | QROM (data : list NDArray) (selection_bitsizes target_bitsizes : list Z)
  | LessThanEqual (x_bitsize y_bitsize : Z).

(** The three ways in which the file applies a gate to qubits:
    [gate.on( *qubits)], [gate.on_registers( **quregs)] and the class method
    [CSwap.make_on( **quregs)], keywords in the order written. *)
Inductive Operation : Type :=
  | on (g : Gate) (qubits : list Qid)
  | on_registers (g : Gate) (quregs : list (string * list Qid))
  | CSwap_make_on (quregs : list (string * list Qid)).

(** An item of a [cirq.OP_TREE]: one operation, or a list of operations as
    [on_each] returns it. *)
Inductive OP_TREE : Type :=
  | Op (o : Operation)
  | OpList (l : list Operation).

Definition flatten_to_ops (t : list OP_TREE) : list Operation :=
  t ≫= (fun i => match i with Op o => [o] | OpList l => l end).

(** ** The gate *)

Record StatePreparationAliasSampling : Type :=
  { selection_registers : list SelectionRegister;
    alt : NDArray;
    keep : NDArray;
    mu : Z }.

(** The argument of the [selection_registers] field: one register, or an
    iterable of registers. *)
Inductive selection_arg : Type :=
  | one_register (v : SelectionRegister)
  | registers (v : list SelectionRegister).

(** The converter of the field:
    [(v,) if isinstance(v, SelectionRegister) else tuple(v)]. *)
Definition converter (v : selection_arg) : list SelectionRegister :=
  match v with
  | one_register r => [r]
  | registers l => l
  end.

(** The generated [__init__]: the converter is the only processing of the
    arguments; no field has a validator. *)
Definition init (selection_registers : selection_arg) (alt keep : NDArray)
    (mu : Z) : StatePreparationAliasSampling :=
  {| selection_registers := converter selection_registers;
     alt := alt; keep := keep; mu := mu |}.

Section Accessors.
Variable self : StatePreparationAliasSampling.

Definition sigma_mu_bitsize : Z := mu self.

Definition alternates_bitsize : Z :=
  total_bits (register <$> selection_registers self).

Definition keep_bitsize : Z := mu self.

Definition selection_bitsize : Z :=
  total_bits (register <$> selection_registers self).

Definition junk_registers : list Register :=
  Signature_build
    [("sigma_mu"%string, sigma_mu_bitsize);
     ("alt"%string, alternates_bitsize);
     ("keep"%string, keep_bitsize);
     ("less_than_equal"%string, 1)].

Definition _value_equality_values_
  : list SelectionRegister * list Z * list Z * Z :=
  (selection_registers self, ravel (alt self), ravel (keep self), mu self).
End Accessors.

(** [cirq.value_equality]: [__eq__] compares the value tuples and [__hash__]
    hashes the value tuple; [py_hash] is Python's [hash] on such tuples. *)
Definition eq_ (self other : StatePreparationAliasSampling) : bool :=
  bool_decide (_value_equality_values_ self = _value_equality_values_ other).

Definition hash_ (py_hash : list SelectionRegister * list Z * list Z * Z -> Z)
    (self : StatePreparationAliasSampling) : Z :=
  py_hash (_value_equality_values_ self).

(** ** The decomposition *)

(** [d[k]] and [d.get(k, default)] on the keyword dictionary. *)
Definition getitem {Y} (d : gmap string (list Qid)) (k : string)
    : Gen Y (list Qid) :=
  match d !! k with
  | Some v => Return v
  | None => Raise (KeyError k)
  end.

Definition get (d : gmap string (list Qid)) (k : string) (dflt : list Qid)
    : list Qid :=
  default dflt (d !! k).

(** [t[0]] on a tuple. *)
Definition item0 {Y A} (t : list A) : Gen Y A :=
  match t with
  | x :: _ => Return x
  | [] => Raise IndexError
  end.

Section Decomposition.
(** The argument checks that the gates' own application methods perform
    ([cirq.Gate.on], [on_registers], [make_on]) are outside the file:
    [check o] is [None] when the application [o] is accepted and [Some e]
    when it raises [e]. *)
Variable check : Operation -> option exn.

Definition apply_ {Y} (o : Operation) : Gen Y Operation :=
  match check o with
  | None => Return o
  | Some e => Raise e
  end.

(** [gate.on_each( *qubits)]: one application per qubit, as a list. *)
Fixpoint on_each {Y} (g : Gate) (qubits : list Qid)
    : Gen Y (list Operation) :=
  match qubits with
  | [] => Return []
  | q :: qubits' =>
      o ← apply_ (on g [q]);
      os ← on_each g qubits';
      mret (o :: os)
  end.

Definition decompose_from_registers (self : StatePreparationAliasSampling)
    (quregs : gmap string (list Qid)) : Gen OP_TREE unit :=
  selection ← getitem quregs "selection";
  less_than_equal ← getitem quregs "less_than_equal";
  let sigma_mu := get quregs "sigma_mu" [] in
  alt' ← getitem quregs "alt";
  let keep' := get quregs "keep" [] in
  r0 ← item0 (selection_registers self);
  let N := iteration_length r0 in
  o1 ← apply_ (on (PrepareUniformSuperposition N) selection);
  yield (Op o1);;
  o2 ← on_each H sigma_mu;
  yield (OpList o2);;
  let qrom_gate :=
    QROM [alt self; keep self]
         [selection_bitsize self]
         [alternates_bitsize self; keep_bitsize self] in
  o3 ← apply_ (on_registers qrom_gate
                 [("selection"%string, selection);
                  ("target0_"%string, alt');
                  ("target1_"%string, keep')]);
  yield (Op o3);;
  o4 ← apply_ (on (LessThanEqual (mu self) (mu self))
                 (keep' ++ sigma_mu ++ less_than_equal));
  yield (Op o4);;
  o5 ← apply_ (CSwap_make_on
                 [("ctrl"%string, less_than_equal);
                  ("x"%string, alt');
                  ("y"%string, selection)]);
  yield (Op o5).
End Decomposition.

(** ** The factory *)

Section Factory.
(** [preprocess_lcu_coefficients_for_reversible_sampling] belongs to
    [qualtran.linalg.lcu_util] and is not defined in the file: it is a
    parameter.  It receives the coefficients and the tolerance, whatever
    [float] is, and either raises or returns [(alt, keep, mu)].  The
    argument of type [world] stands for everything besides its two
    arguments that a Python function could read. *)
Context {world float : Type}.
Variable preprocess_lcu_coefficients_for_reversible_sampling :
  world -> list float -> float -> exn + (list Z * list Z * Z).

Definition from_lcu_probs (w : world) (lcu_probabilities : list float)
    (probability_epsilon : float) : exn + StatePreparationAliasSampling :=
  match preprocess_lcu_coefficients_for_reversible_sampling
          w lcu_probabilities probability_epsilon with
  | inl e => inl e
  | inr (alt, keep, mu) =>
      let N := Z.of_nat (length lcu_probabilities) in
      inr (init (one_register
                   (SelectionRegister_ "selection" (bit_length (N - 1)) N))
                (np_array alt) (np_array keep) mu)
  end.
End Factory.

(** ** The alias table *)

(** Modelled from the spec: the invariants of an AliasTable with [L] outcomes
    (section 3): [alt] and [keep] have [L] entries, [alt[i]] is in [[0, L)]
    and [keep[i]] is in [[0, 2^mu)]. *)
Definition AliasTable_invariant (L : Z) (alt keep : list Z) (mu : Z) : bool :=
  bool_decide (Z.of_nat (length alt) = L)
  && bool_decide (Z.of_nat (length keep) = L)
  && forallb (fun a => (0 <=? a) && (a <? L)) alt
  && forallb (fun k => (0 <=? k) && (k <? 2 ^ mu)) keep.

(** The invariant on a gate: its table against the iteration length of its
    selection register. *)
Definition table_invariant (self : StatePreparationAliasSampling) : bool :=
  match selection_registers self with
  | r :: _ =>
      AliasTable_invariant (iteration_length r)
        (ravel (alt self)) (ravel (keep self)) (mu self)
  | [] => false
  end.

(** Modelled from the spec: the mass of outcome [l] that the table encodes,
    in units of [1/(L * 2^mu)] (section 8): [keep[l]] units of its own and
    [2^mu - keep[j]] units from every [j] whose alternate is [l]. *)
Definition donated (mu : Z) (alt keep : list Z) (l : Z) : Z :=
  Zsum ((fun ak => if bool_decide (ak.1 = l) then 2 ^ mu - ak.2 else 0)
          <$> zip alt keep).

Definition encoded_units (mu : Z) (alt keep : list Z) (l : Z) : Z :=
  keep !!! Z.to_nat l + donated mu alt keep l.

Definition encoded_total (L mu : Z) (alt keep : list Z) : Z :=
  Zsum (encoded_units mu alt keep <$> seqZ 0 L).

(** ** What the decomposition is expected to produce *)

(** The five steps as the specification lists them, on the registers bound:
    the uniform superposition over [L] on the selection register, a Hadamard
    on each bit of [sigma_mu], the lookup of [alt] and [keep] addressed by
    the selection register, the comparison whose operands are [keep] then
    [sigma_mu] and whose target is the flag, and the exchange of [alt] and
    the selection register controlled by the flag. *)
Definition five_steps (self : StatePreparationAliasSampling) (L : Z)
    (selection sigma_mu alt' keep' flag : list Qid) : list OP_TREE :=
  [ Op (on (PrepareUniformSuperposition L) selection);
    OpList ((fun q => on H [q]) <$> sigma_mu);
    Op (on_registers
          (QROM [alt self; keep self] [selection_bitsize self]
                [alternates_bitsize self; keep_bitsize self])
          [("selection"%string, selection);
           ("target0_"%string, alt');
           ("target1_"%string, keep')]);
    Op (on (LessThanEqual (mu self) (mu self)) (keep' ++ sigma_mu ++ flag));
    Op (CSwap_make_on
          [("ctrl"%string, flag); ("x"%string, alt'); ("y"%string, selection)]) ].

(** The first of the bindings read with [quregs[...]] that is absent, in the
    order in which the body reads them. *)
Definition first_missing (quregs : gmap string (list Qid)) : option string :=
  find (fun k => bool_decide (quregs !! k = None))
       ["selection"%string; "less_than_equal"%string; "alt"%string].

(** Whether the bindings are those of the declared registers, each of its
    declared width: the selection registers and the junk registers. *)
Definition bindings_match (self : StatePreparationAliasSampling)
    (quregs : gmap string (list Qid)) : bool :=
  forallb
    (fun r : Register =>
       match quregs !! name r with
       | Some qubits => bool_decide (Z.of_nat (length qubits) = bitsize r)
       | None => false
       end)
    ((register <$> selection_registers self) ++ junk_registers self).

(** ** A worked instance *)

(** Modelled from the spec: the widths that the external primitives bind
    (section 6), as a check on the arguments of an application: the uniform
    superposition over [N] binds one register of width [ceil(log2(N))], the
    table lookup an address register and one target per table of the widths
    it was built with, the comparator two inputs of its widths and one
    output bit, the conditional exchange one control bit and two data
    registers of equal width.  The gates themselves are not in the file;
    this instance only serves to run the decomposition on examples. *)
Definition check_widths (o : Operation) : option exn :=
  let len (q : list Qid) := Z.of_nat (length q) in
  let verdict (b : bool) := if b then None else Some (Foreign "ValueError") in
  match o with
  | on (PrepareUniformSuperposition n) q =>
      verdict (bool_decide (len q = bit_length (n - 1)))
  | on H q => verdict (bool_decide (len q = 1))
  | on (LessThanEqual x y) q => verdict (bool_decide (len q = x + y + 1))
  | on_registers (QROM _ [s] [t0; t1]) [(_, qs); (_, q0); (_, q1)] =>
      verdict (bool_decide (len qs = s) && bool_decide (len q0 = t0)
               && bool_decide (len q1 = t1))
  | CSwap_make_on [(_, c); (_, x); (_, y)] =>
      verdict (bool_decide (len c = 1) && bool_decide (len x = len y))
  | _ => Some (Foreign "ValueError")
  end.

Definition qubits (first count : nat) : list Qid :=
  NamedQubit <$> seq first count.

(** Three outcomes at two bits of precision, built with the constructor. *)
Definition example_gate : StatePreparationAliasSampling :=
  init (one_register (SelectionRegister_ "selection" 2 3))
       (np_array [1; 0; 1]) (np_array [2; 3; 1]) 2.

(** Bindings of the declared widths for [example_gate]. *)
Definition example_quregs : gmap string (list Qid) :=
  list_to_map
    [("selection"%string, qubits 0 2); ("sigma_mu"%string, qubits 2 2);
     ("alt"%string, qubits 4 2); ("keep"%string, qubits 6 2);
     ("less_than_equal"%string, qubits 8 1)].

(** Bindings that do not match: [sigma_mu] has five qubits instead of two
    and [keep] is absent. *)
Definition mismatched_quregs : gmap string (list Qid) :=
  delete "keep"%string (<["sigma_mu"%string := qubits 10 5]> example_quregs).

(** A table builder for the examples: it ignores the state of the world and
    returns a fixed table for three coefficients, and raises otherwise. *)
Definition example_preprocess (w : unit) (coefficients : list Q) (epsilon : Q)
    : exn + (list Z * list Z * Z) :=
  if bool_decide (length coefficients = 3%nat)
  then inr ([1; 0; 1], [2; 3; 1], 2)
  else inl (Foreign "ValueError").

Definition example_probs : list Q := [(1 # 4)%Q; (2 # 3)%Q; (1 # 12)%Q].

(** ** The bindings that the decomposition reads *)

(** The keys of [quregs] that the body of [decompose_from_registers] looks
    up, with [quregs[...]] or with [quregs.get]. *)
Definition keys_read : list string :=
  ["selection"%string; "less_than_equal"%string; "sigma_mu"%string;
   "alt"%string; "keep"%string].

(** The names of the registers of a gate: its selection registers and its
    junk registers. *)
Definition declared_names (self : StatePreparationAliasSampling)
    : list string :=
  name <$> ((register <$> selection_registers self) ++ junk_registers self).

(** A gate with two selection registers, and bindings of their widths. *)
Definition two_register_gate : StatePreparationAliasSampling :=
  init (registers [SelectionRegister_ "selection" 2 3;
                   SelectionRegister_ "spin" 1 2])
       (np_array [1; 0; 1]) (np_array [2; 3; 1]) 2.

Definition two_register_quregs : gmap string (list Qid) :=
  list_to_map
    [("selection"%string, qubits 0 2); ("spin"%string, qubits 20 1);
     ("sigma_mu"%string, qubits 2 2); ("alt"%string, qubits 4 3);
     ("keep"%string, qubits 7 2); ("less_than_equal"%string, qubits 9 1)].

(** A gate whose only selection register has another name, and bindings
    for the registers it declares. *)
Definition renamed_gate : StatePreparationAliasSampling :=
  init (one_register (SelectionRegister_ "p" 2 3))
       (np_array [1; 0; 1]) (np_array [2; 3; 1]) 2.

Definition renamed_quregs : gmap string (list Qid) :=
  list_to_map
    [("p"%string, qubits 0 2); ("sigma_mu"%string, qubits 2 2);
     ("alt"%string, qubits 4 2); ("keep"%string, qubits 6 2);
     ("less_than_equal"%string, qubits 8 1)].

(** A gate without selection register. *)
Definition unselected_gate : StatePreparationAliasSampling :=
  init (registers []) (np_array [1; 0; 1]) (np_array [2; 3; 1]) 2.

(** * Properties *)

(** ** Sums over lists *)

Lemma Zsum_app (l k : list Z) : Zsum (l ++ k) = Zsum l + Zsum k.
Proof. induction l as [|x l IH]; simpl; lia. Qed.

Lemma Zsum_fmap_add {A} (f g : A -> Z) (l : list A) :
  Zsum ((fun x => f x + g x) <$> l) = Zsum (f <$> l) + Zsum (g <$> l).
Proof. induction l as [|x l IH]; csimpl; [done | rewrite IH; lia]. Qed.

Lemma Zsum_fmap_ext {A} (f g : A -> Z) (l : list A) :
  Forall (fun x => f x = g x) l -> Zsum (f <$> l) = Zsum (g <$> l).
Proof. induction 1 as [|x l Hx _ IH]; csimpl; [done | by rewrite Hx, IH]. Qed.

Lemma Zsum_fmap_zero {A} (f : A -> Z) (l : list A) :
  Forall (fun x => f x = 0) l -> Zsum (f <$> l) = 0.
Proof. induction 1 as [|x l Hx _ IH]; csimpl; [done | by rewrite Hx, IH]. Qed.

Lemma Zsum_fmap_sub_const (c : Z) (l : list Z) :
  Zsum ((fun k => c - k) <$> l) = Z.of_nat (length l) * c - Zsum l.
Proof. induction l as [|x l IH]; csimpl; [done | rewrite IH; lia]. Qed.

(** Reading a list at every index adds up to the sum of the list. *)
Lemma Zsum_lookup_total (l : list Z) (m : Z) :
  Zsum ((fun i => l !!! Z.to_nat (i - m)) <$> seqZ m (Z.of_nat (length l)))
  = Zsum l.
Proof.
  revert m. induction l as [|x l IH]; intros m; [done |].
  rewrite seqZ_cons by (simpl length; lia).
  simpl length. rewrite fmap_cons. simpl Zsum.
  replace (Z.to_nat (m - m)) with 0%nat by lia. simpl. f_equal.
  replace (Z.pred (Z.of_nat (S (length l)))) with (Z.of_nat (length l)) by lia.
  rewrite <- (IH (Z.succ m)). apply Zsum_fmap_ext, Forall_forall.
  intros i Hi. apply elem_of_seqZ in Hi.
  replace (Z.to_nat (i - m)) with (S (Z.to_nat (i - Z.succ m))) by lia.
  done.
Qed.

(** An indicator of one index of a range adds up to its value. *)
Lemma Zsum_indicator (a d L : Z) :
  0 <= a < L ->
  Zsum ((fun l => if bool_decide (a = l) then d else 0) <$> seqZ 0 L) = d.
Proof.
  intros Ha.
  replace L with (a + (1 + (L - a - 1))) by lia.
  rewrite seqZ_app by lia. rewrite seqZ_app by lia.
  rewrite !fmap_app, !Zsum_app.
  rewrite (Zsum_fmap_zero _ (seqZ 0 a)), (Zsum_fmap_zero _ (seqZ (0 + a + 1) _)).
  - change (seqZ (0 + a) 1) with [0 + a]. simpl.
    rewrite bool_decide_true by lia. lia.
  - apply Forall_forall. intros l Hl. apply elem_of_seqZ in Hl.
    rewrite bool_decide_false by lia. done.
  - apply Forall_forall. intros l Hl. apply elem_of_seqZ in Hl.
    rewrite bool_decide_false by lia. done.
Qed.

(** Each donation is counted once, at the alternate that receives it. *)
Lemma donated_total (mu L : Z) (aks : list (Z * Z)) :
  Forall (fun ak => 0 <= ak.1 < L) aks ->
  Zsum ((fun l =>
           Zsum ((fun ak => if bool_decide (ak.1 = l) then 2 ^ mu - ak.2 else 0)
                   <$> aks)) <$> seqZ 0 L)
  = Zsum ((fun ak => 2 ^ mu - ak.2) <$> aks).
Proof.
  induction 1 as [|[a k] aks Ha _ IH].
  - simpl. apply Zsum_fmap_zero, Forall_forall. done.
  - transitivity
      (Zsum ((fun l =>
                (if bool_decide (a = l) then 2 ^ mu - k else 0)
                + Zsum ((fun ak =>
                           if bool_decide (ak.1 = l) then 2 ^ mu - ak.2 else 0)
                          <$> aks)) <$> seqZ 0 L)); [done |].
    rewrite Zsum_fmap_add, IH, Zsum_indicator by exact Ha. done.
Qed.

Lemma AliasTable_invariant_spec (L : Z) (alt keep : list Z) (mu : Z) :
  AliasTable_invariant L alt keep mu = true <->
  Z.of_nat (length alt) = L /\ Z.of_nat (length keep) = L
  /\ Forall (fun a => 0 <= a < L) alt
  /\ Forall (fun k => 0 <= k < 2 ^ mu) keep.
Proof.
  unfold AliasTable_invariant.
  rewrite !andb_true_iff, !bool_decide_eq_true, !forallb_forall, !Forall_forall.
  split.
  - intros [[[H1 H2] H3] H4]. split; [done | split; [done | split]].
    + intros a Ha%list_elem_of_In%H3. lia.
    + intros k Hk%list_elem_of_In%H4. lia.
  - intros (H1 & H2 & H3 & H4). split; [split; [done |] |].
    + intros a Ha%list_elem_of_In%H3. lia.
    + intros k Hk%list_elem_of_In%H4. lia.
Qed.

(** A table whose alternates are outcomes encodes exactly [L * 2^mu] units. *)
Lemma encoded_total_conserved (L mu : Z) (alt keep : list Z) :
  Z.of_nat (length alt) = L -> Z.of_nat (length keep) = L ->
  Forall (fun a => 0 <= a < L) alt ->
  encoded_total L mu alt keep = L * 2 ^ mu.
Proof.
  intros Hla Hlk Halt. unfold encoded_total, encoded_units, donated.
  assert (Zsum ((fun l => keep !!! Z.to_nat l) <$> seqZ 0 L) = Zsum keep)
    as Hown.
  { rewrite <- Hlk. etrans; [| apply (Zsum_lookup_total keep 0)].
    apply Zsum_fmap_ext, Forall_forall. intros i _. by rewrite Z.sub_0_r. }
  assert (Zsum ((fun ak : Z * Z => 2 ^ mu - ak.2) <$> zip alt keep)
          = L * 2 ^ mu - Zsum keep) as Hgiven.
  { change (fun ak : Z * Z => 2 ^ mu - ak.2)
      with ((fun k => 2 ^ mu - k) ∘ (snd : Z * Z -> Z)).
    rewrite list_fmap_compose, snd_zip by lia.
    rewrite Zsum_fmap_sub_const. lia. }
  rewrite Zsum_fmap_add, donated_total, Hown, Hgiven; [lia |].
  apply Forall_forall. intros [a k] Hak. simpl.
  apply elem_of_zip_l in Hak. rewrite Forall_forall in Halt. by apply Halt.
Qed.

(** ** The trace of the decomposition *)

(** The five items hold four single applications and one Hadamard per bit of
    sigma_mu. *)
Lemma five_steps_operations (self : StatePreparationAliasSampling) (L : Z)
    (selection sigma_mu alt' keep' flag : list Qid) :
  length (five_steps self L selection sigma_mu alt' keep' flag) = 5%nat
  /\ length (flatten_to_ops
               (five_steps self L selection sigma_mu alt' keep' flag))
     = (4 + length sigma_mu)%nat.
Proof.
  split; [done |]. unfold five_steps, flatten_to_ops. cbn.
  rewrite length_app, length_fmap. simpl. lia.
Qed.

Section Trace.
Variable check : Operation -> option exn.

Lemma apply_accepted {Y} (o : Operation) :
  check o = None -> apply_ (Y:=Y) check o = Return o.
Proof. unfold apply_. by intros ->. Qed.

Lemma on_each_cases {Y} (g : Gate) (qubits : list Qid) :
  (Forall (fun q => check (on g [q]) = None) qubits
   /\ on_each (Y:=Y) check g qubits = Return ((fun q => on g [q]) <$> qubits))
  \/ (exists e q, q ∈ qubits /\ check (on g [q]) = Some e
                  /\ on_each (Y:=Y) check g qubits = Raise e).
Proof.
  induction qubits as [|q qubits IH].
  - left. split; [constructor | done].
  - cbn. unfold apply_. destruct (check (on g [q])) as [e|] eqn:Hq.
    + right. exists e, q. split; [left | done].
    + destruct IH as [[Hall ->]|(e & q' & Hin & Hq' & ->)].
      * left. split; [by constructor | done].
      * right. exists e, q'. split; [by right | done].
Qed.

Lemma on_each_accepted {Y} (g : Gate) (qubits : list Qid) :
  Forall (fun q => check (on g [q]) = None) qubits ->
  on_each (Y:=Y) check g qubits = Return ((fun q => on g [q]) <$> qubits).
Proof.
  intros Hall. destruct (on_each_cases (Y:=Y) g qubits)
    as [[_ ->]|(e & q & Hin & Hq & _)]; [done |].
  rewrite Forall_forall in Hall. rewrite Hall in Hq by done. done.
Qed.

(** With the three required bindings and a first selection register, and
    every application accepted by its gate, the body runs to its end. *)
Lemma decompose_from_registers_run self quregs selection flag alt' r rs :
  quregs !! "selection"%string = Some selection ->
  quregs !! "less_than_equal"%string = Some flag ->
  quregs !! "alt"%string = Some alt' ->
  selection_registers self = r :: rs ->
  let steps :=
    five_steps self (iteration_length r) selection
      (get quregs "sigma_mu" []) alt' (get quregs "keep" []) flag in
  Forall (fun o => check o = None) (flatten_to_ops steps) ->
  decompose_from_registers check self quregs
  = foldr Yield (Return tt) steps.
Proof.
  intros Hsel Hflag Halt Hregs steps Hok.
  unfold decompose_from_registers, getitem, item0.
  rewrite Hsel, Hflag, Halt, Hregs. cbn.
  subst steps. unfold five_steps, flatten_to_ops in Hok. cbn in Hok.
  apply Forall_cons in Hok as [H1 Hok].
  apply Forall_app in Hok as [H2 Hok]. apply Forall_fmap in H2.
  apply Forall_cons in Hok as [H3 Hok].
  apply Forall_cons in Hok as [H4 Hok].
  apply Forall_cons in Hok as [H5 _].
  rewrite !apply_accepted, on_each_accepted by assumption. done.
Qed.

Lemma yielded_foldr_Yield {Y A} (ys : list Y) (a : A) :
  yielded (foldr Yield (Return a) ys) = ys
  /\ raised (foldr Yield (Return a) ys) = None.
Proof. induction ys as [|y ys [IH1 IH2]]; cbn; [done | by rewrite IH1]. Qed.

(** A required binding that is absent ends the body at once. *)
Lemma decompose_from_registers_missing self quregs k :
  first_missing quregs = Some k ->
  decompose_from_registers check self quregs = Raise (KeyError k).
Proof.
  unfold first_missing, decompose_from_registers, getitem. cbn [find].
  destruct (quregs !! "selection"%string) as [selection|].
  2:{ rewrite bool_decide_true by done. by intros [= <-]. }
  rewrite bool_decide_false by done.
  destruct (quregs !! "less_than_equal"%string) as [flag|].
  2:{ rewrite bool_decide_true by done. by intros [= <-]. }
  rewrite bool_decide_false by done.
  destruct (quregs !! "alt"%string) as [alt'|].
  2:{ rewrite bool_decide_true by done. by intros [= <-]. }
  rewrite bool_decide_false by done. done.
Qed.

Lemma first_missing_None quregs :
  first_missing quregs = None <->
  exists selection flag alt',
    quregs !! "selection"%string = Some selection
    /\ quregs !! "less_than_equal"%string = Some flag
    /\ quregs !! "alt"%string = Some alt'.
Proof.
  unfold first_missing. cbn [find]. split.
  - destruct (quregs !! "selection"%string) as [selection|];
      [rewrite bool_decide_false by done | by rewrite bool_decide_true].
    destruct (quregs !! "less_than_equal"%string) as [flag|];
      [rewrite bool_decide_false by done | by rewrite bool_decide_true].
    destruct (quregs !! "alt"%string) as [alt'|];
      [rewrite bool_decide_false by done | by rewrite bool_decide_true].
    intros _. by exists selection, flag, alt'.
  - intros (selection & flag & alt' & -> & -> & ->).
    by rewrite !bool_decide_false.
Qed.

(** Once the bindings are read, the first step is yielded as soon as its
    gate accepts the selection binding, whatever the other bindings are. *)
Lemma decompose_from_registers_first self quregs selection flag alt' r rs :
  quregs !! "selection"%string = Some selection ->
  quregs !! "less_than_equal"%string = Some flag ->
  quregs !! "alt"%string = Some alt' ->
  selection_registers self = r :: rs ->
  check (on (PrepareUniformSuperposition (iteration_length r)) selection)
  = None ->
  exists rest,
    yielded (decompose_from_registers check self quregs)
    = Op (on (PrepareUniformSuperposition (iteration_length r)) selection)
      :: rest.
Proof.
  intros Hsel Hflag Halt Hregs H1.
  unfold decompose_from_registers, getitem, item0.
  rewrite Hsel, Hflag, Halt, Hregs. cbn.
  rewrite (apply_accepted _ H1). cbn. eauto.
Qed.

(** The body raises nothing of its own besides [KeyError] for a required
    binding and [IndexError] for an empty tuple of selection registers:
    any other exception is the one a gate raised on its arguments. *)
Lemma decompose_from_registers_raised self quregs e :
  raised (decompose_from_registers check self quregs) = Some e ->
  (exists k, first_missing quregs = Some k /\ e = KeyError k)
  \/ (first_missing quregs = None /\ selection_registers self = []
      /\ e = IndexError)
  \/ (exists o, check o = Some e).
Proof.
  destruct (first_missing quregs) as [k|] eqn:Hmiss.
  { rewrite (decompose_from_registers_missing _ _ k) by done.
    intros [= <-]. left. by exists k. }
  apply first_missing_None in Hmiss
    as (selection & flag & alt' & Hsel & Hflag & Halt).
  unfold decompose_from_registers, getitem, item0.
  rewrite Hsel, Hflag, Halt.
  destruct (selection_registers self) as [|r rs]; cbn.
  { intros [= <-]. right. left. done. }
  intros Hr. right. right. revert Hr. unfold apply_.
  destruct (check (on (PrepareUniformSuperposition _) _)) as [e1|] eqn:H1;
    cbn; [intros [= <-]; eauto |].
  destruct (on_each_cases (Y:=OP_TREE) H (get quregs "sigma_mu" []))
    as [[_ ->]|(e2 & q & _ & H2 & ->)]; cbn; [| intros [= <-]; eauto].
  destruct (check (on_registers _ _)) as [e3|] eqn:H3;
    cbn; [intros [= <-]; eauto |].
  destruct (check (on (LessThanEqual _ _) _)) as [e4|] eqn:H4;
    cbn; [intros [= <-]; eauto |].
  destruct (check (CSwap_make_on _)) as [e5|] eqn:H5;
    cbn; [intros [= <-]; eauto | done].
Qed.
End Trace.

Lemma yielded_foldr_Raise {Y A} (ys : list Y) (e : exn) :
  yielded (foldr Yield (Raise e : Gen Y A) ys) = ys
  /\ raised (foldr Yield (Raise e : Gen Y A) ys) = Some e.
Proof. induction ys as [|y ys [IH1 IH2]]; cbn; [done | by rewrite IH1]. Qed.

(** The body reads [quregs] at five keys only. *)
Lemma decompose_from_registers_reads (check : Operation -> option exn)
    (self : StatePreparationAliasSampling) (q1 q2 : gmap string (list Qid)) :
  q1 !! "selection"%string = q2 !! "selection"%string ->
  q1 !! "less_than_equal"%string = q2 !! "less_than_equal"%string ->
  q1 !! "alt"%string = q2 !! "alt"%string ->
  get q1 "sigma_mu" [] = get q2 "sigma_mu" [] ->
  get q1 "keep" [] = get q2 "keep" [] ->
  decompose_from_registers check self q1
  = decompose_from_registers check self q2.
Proof.
  intros Hsel Hflag Halt Hsig Hkeep.
  unfold decompose_from_registers, getitem.
  by rewrite Hsel, Hflag, Halt, Hsig, Hkeep.
Qed.

(** With the required bindings and a first selection register, the body
    yields the five steps up to the first application that its gate
    rejects, and raises what that gate raised. *)
Lemma decompose_from_registers_shape (check : Operation -> option exn)
    (self : StatePreparationAliasSampling) (quregs : gmap string (list Qid))
    (selection flag alt' : list Qid)
    (r : SelectionRegister) (rs : list SelectionRegister) :
  quregs !! "selection"%string = Some selection ->
  quregs !! "less_than_equal"%string = Some flag ->
  quregs !! "alt"%string = Some alt' ->
  selection_registers self = r :: rs ->
  let steps :=
    five_steps self (iteration_length r) selection
      (get quregs "sigma_mu" []) alt' (get quregs "keep" []) flag in
  (Forall (fun o => check o = None) (flatten_to_ops steps)
   /\ decompose_from_registers check self quregs
      = foldr Yield (Return tt) steps)
  \/ (exists n e o,
        (n < 5)%nat /\ o ∈ flatten_to_ops steps /\ check o = Some e
        /\ Forall (fun o => check o = None) (flatten_to_ops (take n steps))
        /\ decompose_from_registers check self quregs
           = foldr Yield (Raise e) (take n steps)).
Proof.
  intros Hsel Hflag Halt Hregs steps. subst steps.
  unfold decompose_from_registers, getitem, item0, five_steps, flatten_to_ops.
  rewrite Hsel, Hflag, Halt, Hregs. cbn. unfold apply_.
  destruct (check (on (PrepareUniformSuperposition _) _)) as [e1|] eqn:H1; cbn.
  { right. eexists 0%nat, e1, _. split; [lia |]. split; [left |].
    split; [exact H1 |]. split; [constructor | done]. }
  destruct (on_each_cases check (Y:=OP_TREE) H (get quregs "sigma_mu" []))
    as [[H2 ->]|(e2 & q & Hq & H2 & ->)]; cbn.
  2:{ right. eexists 1%nat, e2, _. split; [lia |].
      split; [right; apply elem_of_app; left;
              apply (list_elem_of_fmap_2 (fun q => on H [q])), Hq |].
      split; [exact H2 |]. split; [by repeat constructor | done]. }
  assert (Forall (fun o => check o = None)
            ((fun q => on H [q]) <$> get quregs "sigma_mu" [])) as H2'
    by (by apply Forall_fmap).
  destruct (check (on_registers _ _)) as [e3|] eqn:H3; cbn.
  { right. eexists 2%nat, e3, _. split; [lia |].
    split; [right; apply elem_of_app; right; left |].
    split; [exact H3 |]. split; [cbn | done].
    rewrite app_nil_r. by constructor. }
  destruct (check (on (LessThanEqual _ _) _)) as [e4|] eqn:H4; cbn.
  { right. eexists 3%nat, e4, _. split; [lia |].
    split; [right; apply elem_of_app; right; right; left |].
    split; [exact H4 |]. split; [cbn | done].
    constructor; [done |]. apply Forall_app. split; [done |].
    by repeat constructor. }
  destruct (check (CSwap_make_on _)) as [e5|] eqn:H5; cbn.
  { right. eexists 4%nat, e5, _. split; [lia |].
    split; [right; apply elem_of_app; right; right; right; left |].
    split; [exact H5 |]. split; [cbn | done].
    constructor; [done |]. apply Forall_app. split; [done |].
    by repeat constructor. }
  left. split; [| done].
  constructor; [done |]. apply Forall_app. split; [done |].
  by repeat constructor.
Qed.

(** With the required bindings and a first selection register, a failure of
    the body is the exception of a gate on an application of one of the
    five steps, the first one that is rejected, and exactly the steps
    before that one have been yielded. *)
Lemma decompose_from_registers_stops (check : Operation -> option exn)
    (self : StatePreparationAliasSampling) (quregs : gmap string (list Qid))
    (selection flag alt' : list Qid)
    (r : SelectionRegister) (rs : list SelectionRegister) :
  quregs !! "selection"%string = Some selection ->
  quregs !! "less_than_equal"%string = Some flag ->
  quregs !! "alt"%string = Some alt' ->
  selection_registers self = r :: rs ->
  let steps :=
    five_steps self (iteration_length r) selection
      (get quregs "sigma_mu" []) alt' (get quregs "keep" []) flag in
  (Forall (fun o => check o = None) (flatten_to_ops steps)
   /\ decompose_from_registers check self quregs
      = foldr Yield (Return tt) steps)
  \/ (exists n step o e,
        steps !! n = Some step /\ o ∈ flatten_to_ops [step]
        /\ check o = Some e
        /\ Forall (fun o => check o = None) (flatten_to_ops (take n steps))
        /\ decompose_from_registers check self quregs
           = foldr Yield (Raise e) (take n steps)).
Proof.
  intros Hsel Hflag Halt Hregs steps. subst steps.
  unfold decompose_from_registers, getitem, item0, five_steps, flatten_to_ops.
  rewrite Hsel, Hflag, Halt, Hregs. cbn. unfold apply_.
  destruct (check (on (PrepareUniformSuperposition _) _)) as [e1|] eqn:H1; cbn.
  { right. eexists 0%nat, _, _, e1. split; [reflexivity |].
    split; [left |]. split; [exact H1 |]. split; [constructor | done]. }
  destruct (on_each_cases check (Y:=OP_TREE) H (get quregs "sigma_mu" []))
    as [[H2 ->]|(e2 & q & Hq & H2 & ->)]; cbn.
  2:{ right. eexists 1%nat, _, _, e2. split; [reflexivity |].
      split; [cbn; rewrite app_nil_r;
              apply (list_elem_of_fmap_2 (fun q => on H [q])), Hq |].
      split; [exact H2 |]. split; [by repeat constructor | done]. }
  assert (Forall (fun o => check o = None)
            ((fun q => on H [q]) <$> get quregs "sigma_mu" [])) as H2'
    by (by apply Forall_fmap).
  destruct (check (on_registers _ _)) as [e3|] eqn:H3; cbn.
  { right. eexists 2%nat, _, _, e3. split; [reflexivity |].
    split; [left |]. split; [exact H3 |]. split; [cbn | done].
    rewrite app_nil_r. by constructor. }
  destruct (check (on (LessThanEqual _ _) _)) as [e4|] eqn:H4; cbn.
  { right. eexists 3%nat, _, _, e4. split; [reflexivity |].
    split; [left |]. split; [exact H4 |]. split; [cbn | done].
    constructor; [done |]. apply Forall_app. split; [done |].
    by repeat constructor. }
  destruct (check (CSwap_make_on _)) as [e5|] eqn:H5; cbn.
  { right. eexists 4%nat, _, _, e5. split; [reflexivity |].
    split; [left |]. split; [exact H5 |]. split; [cbn | done].
    constructor; [done |]. apply Forall_app. split; [done |].
    by repeat constructor. }
  left. split; [| done].
  constructor; [done |]. apply Forall_app. split; [done |].
  by repeat constructor.
Qed.

Lemma length_five_steps_take (self : StatePreparationAliasSampling) (L : Z)
    (selection sigma_mu alt' keep' flag : list Qid) (n : nat) :
  (n < 5)%nat ->
  length (take n (five_steps self L selection sigma_mu alt' keep' flag)) = n.
Proof. intros Hn. rewrite length_take. simpl. lia. Qed.

(** ** Bindings of the declared widths *)

Lemma bindings_match_lookup (self : StatePreparationAliasSampling)
    (quregs : gmap string (list Qid)) (reg : Register) :
  bindings_match self quregs = true ->
  reg ∈ (register <$> selection_registers self) ++ junk_registers self ->
  exists qubits,
    quregs !! name reg = Some qubits
    /\ Z.of_nat (length qubits) = bitsize reg.
Proof.
  unfold bindings_match. rewrite forallb_forall.
  intros Hall Hin%list_elem_of_In. specialize (Hall reg Hin).
  destruct (quregs !! name reg) as [qubits|]; [| done].
  exists qubits. split; [done |]. by apply bool_decide_eq_true in Hall.
Qed.

Lemma junk_registers_elem (self : StatePreparationAliasSampling) (n : string)
    (b : Z) :
  {| name := n; bitsize := b |} ∈ junk_registers self <->
  (n = "sigma_mu"%string /\ b = mu self)
  \/ (n = "alt"%string /\ b = alternates_bitsize self)
  \/ (n = "keep"%string /\ b = mu self)
  \/ (n = "less_than_equal"%string /\ b = 1).
Proof.
  unfold junk_registers, Signature_build, sigma_mu_bitsize, keep_bitsize.
  cbn. rewrite !elem_of_cons, elem_of_nil. split.
  - intros [[= -> ->]|[[= -> ->]|[[= -> ->]|[[= -> ->]|[]]]]]; eauto.
  - intros [[-> ->]|[[-> ->]|[[-> ->]|[-> ->]]]]; eauto.
Qed.

Lemma bindings_match_junk (self : StatePreparationAliasSampling)
    (quregs : gmap string (list Qid)) :
  bindings_match self quregs = true ->
  exists sigma_mu alt' keep' flag,
    (quregs !! "sigma_mu"%string = Some sigma_mu
     /\ quregs !! "alt"%string = Some alt'
     /\ quregs !! "keep"%string = Some keep'
     /\ quregs !! "less_than_equal"%string = Some flag)
    /\ Z.of_nat (length sigma_mu) = mu self
    /\ Z.of_nat (length alt') = alternates_bitsize self
    /\ Z.of_nat (length keep') = mu self
    /\ Z.of_nat (length flag) = 1.
Proof.
  intros Hmatch.
  destruct (bindings_match_lookup self quregs
              {| name := "sigma_mu"; bitsize := mu self |} Hmatch)
    as (sigma_mu & Hsig & Hlsig).
  { apply elem_of_app. right. apply junk_registers_elem. eauto. }
  destruct (bindings_match_lookup self quregs
              {| name := "alt"; bitsize := alternates_bitsize self |} Hmatch)
    as (alt' & Halt & Hlalt).
  { apply elem_of_app. right. apply junk_registers_elem. eauto. }
  destruct (bindings_match_lookup self quregs
              {| name := "keep"; bitsize := mu self |} Hmatch)
    as (keep' & Hkeep & Hlkeep).
  { apply elem_of_app. right. apply junk_registers_elem. eauto 6. }
  destruct (bindings_match_lookup self quregs
              {| name := "less_than_equal"; bitsize := 1 |} Hmatch)
    as (flag & Hflag & Hlflag).
  { apply elem_of_app. right. apply junk_registers_elem. eauto 8. }
  by exists sigma_mu, alt', keep', flag.
Qed.

(** ** The decomposition contract *)

(** C1. For a gate with a first selection register of iteration length [L]
    and bindings for selection, sigma_mu, alt, keep and the flag
    ([less_than_equal]), each application being accepted by its gate, the
    generator yields, in this order and then ends: the uniform superposition
    over [L] on the selection register; a Hadamard on each bit of sigma_mu;
    the lookup addressed by the selection register with targets alt and
    keep, on the tables [alt] and [keep]; the comparison of keep (first
    operand) with sigma_mu (second operand) into the flag; the exchange of
    alt and the selection register controlled by the flag. *)
Theorem decompose_from_registers_sequence
    (check : Operation -> option exn) (self : StatePreparationAliasSampling)
    (quregs : gmap string (list Qid))
    (selection sigma_mu alt' keep' flag : list Qid)
    (r : SelectionRegister) (rs : list SelectionRegister) :
  selection_registers self = r :: rs ->
  quregs !! "selection"%string = Some selection ->
  quregs !! "sigma_mu"%string = Some sigma_mu ->
  quregs !! "alt"%string = Some alt' ->
  quregs !! "keep"%string = Some keep' ->
  quregs !! "less_than_equal"%string = Some flag ->
  Forall (fun o => check o = None)
    (flatten_to_ops
       (five_steps self (iteration_length r) selection sigma_mu alt' keep' flag)) ->
  yielded (decompose_from_registers check self quregs)
  = five_steps self (iteration_length r) selection sigma_mu alt' keep' flag
  /\ raised (decompose_from_registers check self quregs) = None.
Proof.
  intros Hregs Hsel Hsig Halt Hkeep Hflag Hok.
  rewrite (decompose_from_registers_run check self quregs selection flag alt' r rs)
    by (try done; unfold get; by rewrite Hsig, Hkeep).
  unfold get. rewrite Hsig, Hkeep. cbn [default].
  apply yielded_foldr_Yield.
Qed.

Lemma decompose_from_registers_sequence_witness :
  yielded (decompose_from_registers check_widths example_gate example_quregs)
  = five_steps example_gate 3 (qubits 0 2) (qubits 2 2) (qubits 4 2)
      (qubits 6 2) (qubits 8 1)
  /\ raised (decompose_from_registers check_widths example_gate example_quregs)
     = None.
Proof.
  apply (decompose_from_registers_sequence check_widths example_gate
           example_quregs (qubits 0 2) (qubits 2 2) (qubits 4 2) (qubits 6 2)
           (qubits 8 1) (SelectionRegister_ "selection" 2 3) []);
    try reflexivity.
  vm_compute. repeat constructor.
Defined.



(** C8, as the specification states it, fails: [mismatched_quregs] binds
    five qubits to sigma_mu where two are declared and binds nothing to
    keep, and the generator still yields its first step, whatever the gates
    do with the arguments they receive later, as soon as the first gate
    accepts the selection binding, which has its declared width.  With
    gates that check widths, two steps are yielded before the lookup raises
    on the empty keep register. *)
Lemma decompose_from_registers_mismatch_counterexample :
  bindings_match example_gate mismatched_quregs = false
  /\ bindings_match example_gate example_quregs = true
  /\ (forall check : Operation -> option exn,
        check (on (PrepareUniformSuperposition 3) (qubits 0 2)) = None ->
        exists rest,
          yielded (decompose_from_registers check example_gate mismatched_quregs)
          = Op (on (PrepareUniformSuperposition 3) (qubits 0 2)) :: rest)
  /\ length (yielded (decompose_from_registers check_widths example_gate
                        mismatched_quregs)) = 2%nat
  /\ raised (decompose_from_registers check_widths example_gate
               mismatched_quregs) = Some (Foreign "ValueError").
Proof.
  split; [reflexivity |]. split; [reflexivity |]. split; [| split; reflexivity].
  intros check H1.
  apply (decompose_from_registers_first check example_gate mismatched_quregs
           (qubits 0 2) (qubits 8 1) (qubits 4 2)
           (SelectionRegister_ "selection" 2 3) []); try reflexivity.
  exact H1.
Qed.

(** C8, amended. The body compares no binding with a declared width and
    has no error for a wrong size.  When selection, less_than_equal or alt
    is absent it raises [KeyError] for the first absent one and has yielded
    nothing.  An absent sigma_mu or keep is read as the empty register.
    With the three bindings present, a gate without selection register
    raises [IndexError] and nothing is yielded.  Otherwise the five steps
    are yielded in order up to the first application that its gate rejects:
    either every application is accepted and the five steps are yielded, or
    the body ends with the exception that a gate raised on an application
    of one of the five steps, after exactly the steps before that one were
    yielded; in particular the first step is yielded as soon as the first
    gate accepts the selection binding. *)
Theorem decompose_from_registers_failures
    (check : Operation -> option exn) (self : StatePreparationAliasSampling)
    (quregs : gmap string (list Qid)) :
  (forall k, first_missing quregs = Some k ->
     yielded (decompose_from_registers check self quregs) = []
     /\ raised (decompose_from_registers check self quregs)
        = Some (KeyError k))
  /\ (forall k, k = "sigma_mu"%string \/ k = "keep"%string ->
        quregs !! k = None ->
        decompose_from_registers check self quregs
        = decompose_from_registers check self (<[k := []]> quregs))
  /\ (first_missing quregs = None -> selection_registers self = [] ->
      yielded (decompose_from_registers check self quregs) = []
      /\ raised (decompose_from_registers check self quregs)
         = Some IndexError)
  /\ (forall r rs selection flag alt',
        selection_registers self = r :: rs ->
        quregs !! "selection"%string = Some selection ->
        quregs !! "less_than_equal"%string = Some flag ->
        quregs !! "alt"%string = Some alt' ->
        (check (on (PrepareUniformSuperposition (iteration_length r)) selection)
         = None ->
         exists rest,
           yielded (decompose_from_registers check self quregs)
           = Op (on (PrepareUniformSuperposition (iteration_length r))
                   selection) :: rest)
        /\ ((Forall (fun o => check o = None)
               (flatten_to_ops
                  (five_steps self (iteration_length r) selection
                     (get quregs "sigma_mu" []) alt' (get quregs "keep" [])
                     flag))
             /\ yielded (decompose_from_registers check self quregs)
                = five_steps self (iteration_length r) selection
                    (get quregs "sigma_mu" []) alt' (get quregs "keep" [])
                    flag
             /\ raised (decompose_from_registers check self quregs) = None)
            \/ (exists n step o e,
                  five_steps self (iteration_length r) selection
                    (get quregs "sigma_mu" []) alt' (get quregs "keep" [])
                    flag !! n = Some step
                  /\ o ∈ flatten_to_ops [step]
                  /\ check o = Some e
                  /\ yielded (decompose_from_registers check self quregs)
                     = take n
                         (five_steps self (iteration_length r) selection
                            (get quregs "sigma_mu" []) alt'
                            (get quregs "keep" []) flag)
                  /\ Forall (fun o => check o = None)
                       (flatten_to_ops
                          (yielded
                             (decompose_from_registers check self quregs)))
                  /\ raised (decompose_from_registers check self quregs)
                     = Some e))).
Proof.
  split; [| split; [| split]].
  - intros k Hk. by rewrite (decompose_from_registers_missing check self quregs k).
  - intros k [->| ->] Hnone; apply decompose_from_registers_reads;
      unfold get; rewrite ?lookup_insert_eq, ?Hnone;
      by rewrite ?lookup_insert_ne by done.
  - intros (selection & flag & alt' & Hsel & Hflag & Halt)%first_missing_None
      Hregs.
    unfold decompose_from_registers, getitem, item0.
    by rewrite Hsel, Hflag, Halt, Hregs.
  - intros r rs selection flag alt' Hregs Hsel Hflag Halt. split.
    + by apply (decompose_from_registers_first check self quregs selection
                  flag alt' r rs).
    + destruct (decompose_from_registers_stops check self quregs selection
                  flag alt' r rs Hsel Hflag Halt Hregs)
        as [[Hok ->]|(n & step & o & e & Hn & Ho & He & Hok & ->)].
      * left. split; [done |]. apply yielded_foldr_Yield.
      * right. exists n, step, o, e.
        destruct (yielded_foldr_Raise (A:=unit)
                    (take n (five_steps self (iteration_length r) selection
                               (get quregs "sigma_mu" []) alt'
                               (get quregs "keep" []) flag)) e) as [-> ->].
        done.
Qed.

Lemma decompose_from_registers_failures_witness :
  (yielded (decompose_from_registers check_widths example_gate
              (delete "alt"%string example_quregs)) = []
   /\ raised (decompose_from_registers check_widths example_gate
                (delete "alt"%string example_quregs))
      = Some (KeyError "alt"))
  /\ decompose_from_registers check_widths example_gate mismatched_quregs
     = decompose_from_registers check_widths example_gate
         (<["keep"%string := []]> mismatched_quregs)
  /\ (exists rest,
        yielded (decompose_from_registers check_widths example_gate
                   mismatched_quregs)
        = Op (on (PrepareUniformSuperposition 3) (qubits 0 2)) :: rest).
Proof.
  split; [| split].
  - apply (proj1 (decompose_from_registers_failures check_widths example_gate
                    (delete "alt"%string example_quregs)) "alt"%string).
    reflexivity.
  - apply (proj1 (proj2 (decompose_from_registers_failures check_widths
                           example_gate mismatched_quregs)) "keep"%string);
      [by right | reflexivity].
  - apply (proj1 (proj2 (proj2 (proj2 (decompose_from_registers_failures
                                         check_widths example_gate
                                         mismatched_quregs)))
                    (SelectionRegister_ "selection" 2 3) [] (qubits 0 2)
                    (qubits 8 1) (qubits 4 2)
                    eq_refl eq_refl eq_refl eq_refl));
      reflexivity.
Defined.

(** ** Register widths *)

Lemma bit_length_pred (L : Z) : 1 <= L -> bit_length (L - 1) = ceil_log2 L.
Proof.
  intros HL. unfold bit_length, ceil_log2.
  destruct (Z.eq_dec L 1) as [->|Hne]; [done |].
  rewrite Z.abs_eq by lia.
  destruct (Z.eqb_spec (L - 1) 0) as [|_]; [lia |].
  rewrite Z.log2_up_eqn by lia. unfold Z.pred, Z.succ. done.
Qed.

Example bit_length_values :
  bit_length 0 = 0 /\ bit_length 4 = 3 /\ bit_length 7 = 3 /\ bit_length 8 = 4
  /\ bit_length (-1) = 1.
Proof. repeat split. Qed.

(** [ceil_log2 L] is the least width whose range holds [L] values. *)
Lemma ceil_log2_least (L : Z) :
  1 <= L ->
  0 <= ceil_log2 L /\ L <= 2 ^ ceil_log2 L
  /\ forall v, 0 <= v -> L <= 2 ^ v -> ceil_log2 L <= v.
Proof.
  intros HL. unfold ceil_log2. split; [apply Z.log2_up_nonneg |]. split.
  - apply Z.log2_up_le_pow2; lia.
  - intros v _ Hv. apply Z.log2_up_le_pow2; lia.
Qed.

Lemma from_lcu_probs_inr {world float : Type}
    (pre : world -> list float -> float -> exn + (list Z * list Z * Z))
    (w : world) (p : list float) (e : float) (s : StatePreparationAliasSampling) :
  from_lcu_probs pre w p e = inr s <->
  exists alt keep mu,
    pre w p e = inr (alt, keep, mu)
    /\ s = init (one_register
                   (SelectionRegister_ "selection"
                      (bit_length (Z.of_nat (length p) - 1))
                      (Z.of_nat (length p))))
                (np_array alt) (np_array keep) mu.
Proof.
  unfold from_lcu_probs. destruct (pre w p e) as [x|[[alt keep] mu]].
  - split; [done |]. by intros (? & ? & ? & ? & _).
  - split.
    + intros [= <-]. by exists alt, keep, mu.
    + intros (? & ? & ? & [= <- <- <-] & ->). done.
Qed.

Lemma selection_bitsize_init_one (r : SelectionRegister) (alt keep : NDArray)
    (mu : Z) :
  selection_bitsize (init (one_register r) alt keep mu) = bitsize r.
Proof. unfold selection_bitsize, total_bits. cbn. lia. Qed.

(** C4. A gate that the factory builds from [L >= 1] coefficients has
    [selection_bitsize] equal to [ceil(log2(L))], the least width whose
    range holds [L] values: 3 for [L = 5], 3 for [L = 8], 4 for [L = 9]. *)
Theorem from_lcu_probs_selection_bitsize {world float : Type}
    (pre : world -> list float -> float -> exn + (list Z * list Z * Z))
    (w : world) (p : list float) (e : float) (s : StatePreparationAliasSampling) :
  p <> [] ->
  from_lcu_probs pre w p e = inr s ->
  selection_bitsize s = ceil_log2 (Z.of_nat (length p))
  /\ Z.of_nat (length p) <= 2 ^ selection_bitsize s
  /\ (forall v, 0 <= v -> Z.of_nat (length p) <= 2 ^ v ->
        selection_bitsize s <= v)
  /\ (length p = 5%nat -> selection_bitsize s = 3)
  /\ (length p = 8%nat -> selection_bitsize s = 3)
  /\ (length p = 9%nat -> selection_bitsize s = 4).
Proof.
  intros Hp (a & k & m & _ & ->)%from_lcu_probs_inr.
  assert (1 <= Z.of_nat (length p)) as HL by (destruct p; [done | simpl; lia]).
  rewrite selection_bitsize_init_one. cbn [SelectionRegister_ register bitsize].
  rewrite bit_length_pred by done.
  destruct (ceil_log2_least _ HL) as (_ & Hle & Hleast).
  repeat split; try done; by intros ->.
Qed.

Lemma from_lcu_probs_selection_bitsize_witness :
  exists s,
    from_lcu_probs example_preprocess tt example_probs (1 # 100)%Q = inr s
    /\ selection_bitsize s = 2.
Proof.
  eexists. split; [reflexivity |].
  apply (proj1 (from_lcu_probs_selection_bitsize example_preprocess tt
                  example_probs (1 # 100)%Q _ ltac:(discriminate) eq_refl)).
Defined.

(** C7, as the specification states it, fails: the gate that the factory
    builds from three coefficients at [mu = 2] has junk registers of 2, 2, 2
    and 1 bits, 7 in all, where [2 * ceil(log2(3)) + 2 * mu + 1] is 9. *)
Lemma from_lcu_probs_junk_total_counterexample :
  from_lcu_probs example_preprocess tt example_probs (1 # 100)%Q
  = inr example_gate
  /\ total_bits (junk_registers example_gate) = 7
  /\ 2 * ceil_log2 (Z.of_nat (length example_probs)) + 2 * mu example_gate + 1
     = 9.
Proof. repeat split. Qed.

(** C7, amended. The junk registers of a gate that the factory builds from
    [L >= 1] coefficients are sigma_mu of width [mu], alt of width
    [ceil(log2(L))], keep of width [mu] and the flag [less_than_equal] of
    width 1, in all [ceil(log2(L)) + 2 * mu + 1] bits; together with the
    selection register the gate acts on [2 * ceil(log2(L)) + 2 * mu + 1]
    bits. *)
Theorem from_lcu_probs_junk_registers {world float : Type}
    (pre : world -> list float -> float -> exn + (list Z * list Z * Z))
    (w : world) (p : list float) (e : float) (s : StatePreparationAliasSampling) :
  p <> [] ->
  from_lcu_probs pre w p e = inr s ->
  junk_registers s
  = [ {| name := "sigma_mu"; bitsize := mu s |};
      {| name := "alt"; bitsize := ceil_log2 (Z.of_nat (length p)) |};
      {| name := "keep"; bitsize := mu s |};
      {| name := "less_than_equal"; bitsize := 1 |} ]
  /\ total_bits (junk_registers s)
     = ceil_log2 (Z.of_nat (length p)) + 2 * mu s + 1
  /\ selection_bitsize s + total_bits (junk_registers s)
     = 2 * ceil_log2 (Z.of_nat (length p)) + 2 * mu s + 1.
Proof.
  intros Hp (a & k & m & _ & ->)%from_lcu_probs_inr.
  assert (1 <= Z.of_nat (length p)) as HL by (destruct p; [done | simpl; lia]).
  rewrite selection_bitsize_init_one.
  unfold junk_registers, Signature_build, sigma_mu_bitsize, keep_bitsize,
    alternates_bitsize, total_bits, init, SelectionRegister_.
  cbn. rewrite Z.add_0_r, bit_length_pred by done.
  split; [done | split; lia].
Qed.

Lemma from_lcu_probs_junk_registers_witness :
  exists s,
    from_lcu_probs example_preprocess tt example_probs (1 # 100)%Q = inr s
    /\ total_bits (junk_registers s) = 7
    /\ selection_bitsize s + total_bits (junk_registers s) = 9.
Proof.
  eexists. split; [reflexivity |].
  apply (proj2 (from_lcu_probs_junk_registers example_preprocess tt
                  example_probs (1 # 100)%Q _ ltac:(discriminate) eq_refl)).
Defined.

(** C9, as the specification states it, fails on a gate constructed with
    two selection registers: with bindings of the declared widths the alt
    register has the three bits of both selection registers, and the last
    step exchanges it with the selection binding, which has two; gates that
    check widths reject the decomposition. *)
Lemma alternates_bitsize_exchange_counterexample :
  bindings_match two_register_gate two_register_quregs = true
  /\ alternates_bitsize two_register_gate = 3
  /\ two_register_quregs !! "alt"%string = Some (qubits 4 3)
  /\ two_register_quregs !! "selection"%string = Some (qubits 0 2)
  /\ last (yielded (decompose_from_registers (fun _ => None) two_register_gate
                      two_register_quregs))
     = Some (Op (CSwap_make_on
                   [("ctrl"%string, qubits 9 1); ("x"%string, qubits 4 3);
                    ("y"%string, qubits 0 2)]))
  /\ raised (decompose_from_registers check_widths two_register_gate
               two_register_quregs) = Some (Foreign "ValueError").
Proof. repeat split. Qed.

(** C9, amended. On every gate, however it was constructed,
    [alternates_bitsize] and [selection_bitsize] are both the total number
    of bits of the selection registers, [sigma_mu_bitsize] and
    [keep_bitsize] are both [mu], and the alt register is declared among
    the junk registers with that total width.  With bindings of the
    declared widths and a first selection register named selection, the alt
    binding has as many qubits as the selection binding and the other
    selection registers together: it has the width of the selection binding
    that the last step exchanges it with when the gate has one selection
    register. *)
Theorem bitsize_accessors (self : StatePreparationAliasSampling) :
  alternates_bitsize self = selection_bitsize self
  /\ selection_bitsize self
     = total_bits (register <$> selection_registers self)
  /\ sigma_mu_bitsize self = keep_bitsize self
  /\ keep_bitsize self = mu self
  /\ {| name := "alt"; bitsize := selection_bitsize self |}
     ∈ junk_registers self
  /\ (forall (r : SelectionRegister) (alt keep : NDArray) (mu : Z),
        alternates_bitsize (init (one_register r) alt keep mu) = bitsize r)
  /\ (forall (quregs : gmap string (list Qid)) r rs,
        selection_registers self = r :: rs ->
        name r = "selection"%string ->
        bindings_match self quregs = true ->
        exists selection alt',
          quregs !! "selection"%string = Some selection
          /\ quregs !! "alt"%string = Some alt'
          /\ Z.of_nat (length selection) = bitsize r
          /\ Z.of_nat (length alt')
             = Z.of_nat (length selection) + total_bits (register <$> rs))
  /\ (forall (quregs : gmap string (list Qid)) r,
        selection_registers self = [r] ->
        name r = "selection"%string ->
        bindings_match self quregs = true ->
        exists selection alt',
          quregs !! "selection"%string = Some selection
          /\ quregs !! "alt"%string = Some alt'
          /\ length alt' = length selection).
Proof.
  assert (forall (quregs : gmap string (list Qid)) r rs,
            selection_registers self = r :: rs ->
            name r = "selection"%string ->
            bindings_match self quregs = true ->
            exists selection alt',
              quregs !! "selection"%string = Some selection
              /\ quregs !! "alt"%string = Some alt'
              /\ Z.of_nat (length selection) = bitsize r
              /\ Z.of_nat (length alt')
                 = Z.of_nat (length selection) + total_bits (register <$> rs))
    as Hwidth.
  { intros quregs r rs Hregs Hname Hmatch.
    destruct (bindings_match_lookup self quregs r Hmatch)
      as (selection & Hsel & Hlsel).
    { rewrite Hregs. apply elem_of_app. left. rewrite fmap_cons. left. }
    rewrite Hname in Hsel.
    destruct (bindings_match_junk self quregs Hmatch)
      as (sigma_mu & alt' & keep' & flag & (_ & Halt & _) & _ & Hlalt & _).
    exists selection, alt'. split; [done |]. split; [done |]. split; [done |].
    rewrite Hlalt, Hlsel. unfold alternates_bitsize, total_bits.
    rewrite Hregs. by rewrite !fmap_cons. }
  split; [done |]. split; [done |]. split; [done |]. split; [done |].
  split; [| split; [| split]].
  - unfold junk_registers, Signature_build, alternates_bitsize; cbn.
    apply list_elem_of_further, list_elem_of_here.
  - intros r a k m. apply selection_bitsize_init_one.
  - exact Hwidth.
  - intros quregs r Hregs Hname Hmatch.
    destruct (Hwidth quregs r [] Hregs Hname Hmatch)
      as (selection & alt' & Hsel & Halt & _ & Hlen).
    exists selection, alt'. split; [done |]. split; [done |].
    unfold total_bits in Hlen. cbn in Hlen. lia.
Qed.

Lemma bitsize_accessors_witness :
  (exists selection alt',
     two_register_quregs !! "selection"%string = Some selection
     /\ two_register_quregs !! "alt"%string = Some alt'
     /\ Z.of_nat (length selection) = 2
     /\ Z.of_nat (length alt') = Z.of_nat (length selection) + 1)
  /\ (exists selection alt',
        example_quregs !! "selection"%string = Some selection
        /\ example_quregs !! "alt"%string = Some alt'
        /\ length alt' = length selection).
Proof.
  split.
  - exact (proj1 (proj2 (proj2 (proj2 (proj2 (proj2 (proj2
             (bitsize_accessors two_register_gate)))))))
             two_register_quregs (SelectionRegister_ "selection" 2 3)
             [SelectionRegister_ "spin" 1 2] eq_refl eq_refl eq_refl).
  - exact (proj2 (proj2 (proj2 (proj2 (proj2 (proj2 (proj2
             (bitsize_accessors example_gate)))))))
             example_quregs (SelectionRegister_ "selection" 2 3)
             eq_refl eq_refl eq_refl).
Defined.

(** ** The alias table of a factory-built gate *)

(** C2. When the table builder keeps the invariants of an alias table, the
    table of the gate that the factory returns for [L] coefficients encodes
    exactly [L * 2^mu] units of mass: the [keep[l]] units that each outcome
    [l] owns and the [2^mu - keep[j]] units it receives from every [j] with
    [alt[j] = l] add up, over the [L] outcomes, to [L * 2^mu]. *)
Theorem from_lcu_probs_conserves_mass {world float : Type}
    (pre : world -> list float -> float -> exn + (list Z * list Z * Z))
    (w : world) (p : list float) (e : float) (s : StatePreparationAliasSampling) :
  (forall alt keep mu,
     pre w p e = inr (alt, keep, mu) ->
     AliasTable_invariant (Z.of_nat (length p)) alt keep mu = true) ->
  from_lcu_probs pre w p e = inr s ->
  encoded_total (Z.of_nat (length p)) (mu s) (ravel (alt s)) (ravel (keep s))
  = Z.of_nat (length p) * 2 ^ mu s.
Proof.
  intros Hpre (a & k & m & Hrun & ->)%from_lcu_probs_inr.
  apply Hpre, AliasTable_invariant_spec in Hrun as (Hla & Hlk & Ha & _).
  by apply encoded_total_conserved.
Qed.

Lemma from_lcu_probs_conserves_mass_witness :
  exists s,
    from_lcu_probs example_preprocess tt example_probs (1 # 100)%Q = inr s
    /\ encoded_total 3 (mu s) (ravel (alt s)) (ravel (keep s)) = 12.
Proof.
  eexists. split; [reflexivity |].
  apply (from_lcu_probs_conserves_mass example_preprocess tt example_probs
           (1 # 100)%Q).
  - intros a k m [= <- <- <-]. reflexivity.
  - reflexivity.
Defined.

(** ** Value equality *)

Lemma eq__values (s1 s2 : StatePreparationAliasSampling) :
  eq_ s1 s2 = true <-> _value_equality_values_ s1 = _value_equality_values_ s2.
Proof. unfold eq_. apply bool_decide_eq_true. Qed.

Lemma from_lcu_probs_values {world float : Type}
    (pre : world -> list float -> float -> exn + (list Z * list Z * Z))
    (w : world) (p : list float) (e : float) (s : StatePreparationAliasSampling) :
  from_lcu_probs pre w p e = inr s ->
  exists a k m,
    pre w p e = inr (a, k, m)
    /\ _value_equality_values_ s
       = ([SelectionRegister_ "selection"
             (bit_length (Z.of_nat (length p) - 1)) (Z.of_nat (length p))],
          a, k, m).
Proof.
  intros (a & k & m & Hrun & ->)%from_lcu_probs_inr. by exists a, k, m.
Qed.

(** C5. Two gates are equal exactly when their value tuples (selection
    registers, elements of [alt], elements of [keep], [mu]) are equal, and
    gates with equal value tuples have equal hashes, whatever else differs
    between them.  Two gates that the factory builds from the same
    coefficients and tolerance, the builder returning the same table, are
    equal and hash equal; two gates that it builds from inputs of different
    lengths, or for which the builder returns different tables, as it does
    when a coefficient changes by more than the rounding absorbs, are
    unequal. *)
Theorem value_equality
    (py_hash : list SelectionRegister * list Z * list Z * Z -> Z) :
  (forall s1 s2,
     eq_ s1 s2 = true
     <-> _value_equality_values_ s1 = _value_equality_values_ s2)
  /\ (forall s1 s2,
        _value_equality_values_ s1 = _value_equality_values_ s2 ->
        eq_ s1 s2 = true /\ hash_ py_hash s1 = hash_ py_hash s2)
  /\ (forall (world float : Type)
         (pre : world -> list float -> float -> exn + (list Z * list Z * Z))
         w1 w2 p e s1 s2,
        pre w1 p e = pre w2 p e ->
        from_lcu_probs pre w1 p e = inr s1 ->
        from_lcu_probs pre w2 p e = inr s2 ->
        eq_ s1 s2 = true /\ hash_ py_hash s1 = hash_ py_hash s2)
  /\ (forall (world float : Type)
         (pre : world -> list float -> float -> exn + (list Z * list Z * Z))
         w1 w2 p1 p2 e1 e2 s1 s2,
        from_lcu_probs pre w1 p1 e1 = inr s1 ->
        from_lcu_probs pre w2 p2 e2 = inr s2 ->
        length p1 <> length p2 \/ pre w1 p1 e1 <> pre w2 p2 e2 ->
        eq_ s1 s2 = false).
Proof.
  split; [apply eq__values |]. split; [| split].
  - intros s1 s2 Hv. split; [by apply eq__values |].
    unfold hash_. by rewrite Hv.
  - intros world float pre w1 w2 p e s1 s2 Hsame
      (a1 & k1 & m1 & Hrun1 & Hv1)%from_lcu_probs_values
      (a2 & k2 & m2 & Hrun2 & Hv2)%from_lcu_probs_values.
    rewrite Hsame, Hrun2 in Hrun1. injection Hrun1 as <- <- <-.
    assert (_value_equality_values_ s1 = _value_equality_values_ s2) as Hv
      by (by rewrite Hv1, Hv2).
    split; [by apply eq__values |]. unfold hash_. by rewrite Hv.
  - intros world float pre w1 w2 p1 p2 e1 e2 s1 s2
      (a1 & k1 & m1 & Hrun1 & Hv1)%from_lcu_probs_values
      (a2 & k2 & m2 & Hrun2 & Hv2)%from_lcu_probs_values Hdiff.
    apply not_true_is_false. rewrite eq__values, Hv1, Hv2.
    intros [= _ HL <- <- <-]. apply Nat2Z.inj in HL.
    destruct Hdiff as [Hlen|Htab]; [done |].
    apply Htab. by rewrite Hrun1, Hrun2.
Qed.

Lemma value_equality_witness :
  eq_ example_gate
      (init (registers [SelectionRegister_ "selection" 2 3])
            {| shape := [3%nat; 1%nat]; ravel := [1; 0; 1] |}
            {| shape := [1%nat; 3%nat]; ravel := [2; 3; 1] |} 2) = true
  /\ hash_ (fun v => v.2) example_gate
     = hash_ (fun v => v.2)
         (init (registers [SelectionRegister_ "selection" 2 3])
               {| shape := [3%nat; 1%nat]; ravel := [1; 0; 1] |}
               {| shape := [1%nat; 3%nat]; ravel := [2; 3; 1] |} 2).
Proof.
  apply (proj1 (proj2 (value_equality (fun v => v.2)))). reflexivity.
Defined.

(** ** The constructor *)

(** C10. The constructor stores its arguments as they are, the converter
    applied to the selection registers, and checks nothing: it returns a
    gate for tables whose lengths differ from the iteration length of the
    selection register, for an [alt] with entries outside [[0, L)] and for
    a [keep] with entries outside [[0, 2^mu)], none of which satisfies the
    invariants of an alias table. *)
Theorem init_validates_nothing :
  (forall v a k m,
     selection_registers (init v a k m) = converter v
     /\ alt (init v a k m) = a /\ keep (init v a k m) = k
     /\ mu (init v a k m) = m)
  /\ (exists r a k m,
        Z.of_nat (length (ravel a)) <> iteration_length r
        /\ Z.of_nat (length (ravel k)) <> iteration_length r
        /\ table_invariant (init (one_register r) a k m) = false)
  /\ (exists r a k m,
        Z.of_nat (length (ravel a)) = iteration_length r
        /\ Z.of_nat (length (ravel k)) = iteration_length r
        /\ forallb (fun x => (0 <=? x) && (x <? iteration_length r)) (ravel a)
           = false
        /\ table_invariant (init (one_register r) a k m) = false)
  /\ (exists r a k m,
        Z.of_nat (length (ravel a)) = iteration_length r
        /\ Z.of_nat (length (ravel k)) = iteration_length r
        /\ forallb (fun x => (0 <=? x) && (x <? 2 ^ m)) (ravel k) = false
        /\ table_invariant (init (one_register r) a k m) = false).
Proof.
  split; [done |]. split; [| split].
  - exists (SelectionRegister_ "selection" 2 4), (np_array [0]),
      (np_array [1; 0]), 1.
    by vm_compute.
  - exists (SelectionRegister_ "selection" 1 2), (np_array [7; -1]),
      (np_array [1; 0]), 1.
    by vm_compute.
  - exists (SelectionRegister_ "selection" 1 2), (np_array [1; 0]),
      (np_array [5; -3]), 1.
    by vm_compute.
Qed.

(** * Further properties of the decomposition *)

(** X1. A gate without selection register cannot be decomposed: once the
    three required bindings are found, [self.selection_registers[0]] raises
    [IndexError] and nothing has been yielded. *)
Theorem decompose_from_registers_no_selection_register
    (check : Operation -> option exn) (self : StatePreparationAliasSampling)
    (quregs : gmap string (list Qid)) :
  selection_registers self = [] ->
  first_missing quregs = None ->
  yielded (decompose_from_registers check self quregs) = []
  /\ raised (decompose_from_registers check self quregs) = Some IndexError.
Proof.
  intros Hregs (selection & flag & alt' & Hsel & Hflag & Halt)%first_missing_None.
  unfold decompose_from_registers, getitem, item0.
  by rewrite Hsel, Hflag, Halt, Hregs.
Qed.

Lemma decompose_from_registers_no_selection_register_witness :
  yielded (decompose_from_registers check_widths unselected_gate example_quregs)
  = []
  /\ raised (decompose_from_registers check_widths unselected_gate
               example_quregs) = Some IndexError.
Proof.
  apply (decompose_from_registers_no_selection_register check_widths
           unselected_gate example_quregs); reflexivity.
Defined.

(** X2. A binding for sigma_mu or keep that is absent behaves as the empty
    binding: the decomposition is the one obtained with that key bound to no
    qubit. *)
Theorem decompose_from_registers_absent_is_empty
    (check : Operation -> option exn) (self : StatePreparationAliasSampling)
    (quregs : gmap string (list Qid)) (k : string) :
  k = "sigma_mu"%string \/ k = "keep"%string ->
  quregs !! k = None ->
  decompose_from_registers check self (<[k := []]> quregs)
  = decompose_from_registers check self quregs.
Proof.
  intros [->| ->] Hnone; apply decompose_from_registers_reads;
    unfold get; rewrite ?lookup_insert_eq, ?Hnone;
    by rewrite ?lookup_insert_ne by done.
Qed.

Lemma decompose_from_registers_absent_is_empty_witness :
  decompose_from_registers check_widths example_gate
    (<["keep"%string := []]> (delete "keep"%string example_quregs))
  = decompose_from_registers check_widths example_gate
      (delete "keep"%string example_quregs).
Proof.
  apply (decompose_from_registers_absent_is_empty check_widths example_gate
           (delete "keep"%string example_quregs) "keep"%string);
    [by right | reflexivity].
Defined.

(** X3. The decomposition reads no binding besides selection,
    less_than_equal, sigma_mu, alt and keep: bindings that agree on these
    five keys give the same decomposition, whatever else they hold. *)
Theorem decompose_from_registers_other_keys
    (check : Operation -> option exn) (self : StatePreparationAliasSampling)
    (q1 q2 : gmap string (list Qid)) :
  (forall k, k ∈ keys_read -> q1 !! k = q2 !! k) ->
  decompose_from_registers check self q1
  = decompose_from_registers check self q2.
Proof.
  intros Hsame. apply decompose_from_registers_reads; unfold get;
    try rewrite (Hsame "sigma_mu"%string);
    try rewrite (Hsame "keep"%string);
    try apply Hsame; try done; unfold keys_read; set_solver.
Qed.

Lemma decompose_from_registers_other_keys_witness :
  decompose_from_registers check_widths example_gate
    (<["ancilla"%string := qubits 30 4]> example_quregs)
  = decompose_from_registers check_widths example_gate example_quregs.
Proof.
  apply (decompose_from_registers_other_keys check_widths example_gate
           (<["ancilla"%string := qubits 30 4]> example_quregs) example_quregs).
  intros k Hk. apply lookup_insert_ne. intros <-.
  unfold keys_read in Hk. by repeat (apply elem_of_cons in Hk as [Hk|Hk]);
    [.. | apply elem_of_nil in Hk].
Defined.

(** X4. On any gate and any bindings the generator either ends normally
    after exactly five items, or raises after fewer than five: it never
    yields a sixth item and never ends normally early. *)
Theorem decompose_from_registers_ends
    (check : Operation -> option exn) (self : StatePreparationAliasSampling)
    (quregs : gmap string (list Qid)) :
  (raised (decompose_from_registers check self quregs) = None
   /\ length (yielded (decompose_from_registers check self quregs)) = 5%nat)
  \/ (is_Some (raised (decompose_from_registers check self quregs))
      /\ (length (yielded (decompose_from_registers check self quregs)) < 5)%nat).
Proof.
  destruct (first_missing quregs) as [k|] eqn:Hmiss.
  { rewrite (decompose_from_registers_missing check self quregs k) by done.
    right. cbn. split; [by eexists | lia]. }
  destruct (selection_registers self) as [|r rs] eqn:Hregs.
  { destruct (decompose_from_registers_no_selection_register check self quregs
                Hregs Hmiss) as [-> ->].
    right. cbn. split; [by eexists | lia]. }
  apply first_missing_None in Hmiss
    as (selection & flag & alt' & Hsel & Hflag & Halt).
  destruct (decompose_from_registers_shape check self quregs selection flag
              alt' r rs Hsel Hflag Halt Hregs)
    as [[_ ->]|(n & e & o & Hn & _ & _ & _ & ->)].
  - left. by destruct (yielded_foldr_Yield (A:=unit)
                         (five_steps self (iteration_length r) selection
                            (get quregs "sigma_mu" []) alt'
                            (get quregs "keep" []) flag) tt) as [-> ->].
  - right.
    destruct (yielded_foldr_Raise (A:=unit)
                (take n (five_steps self (iteration_length r) selection
                           (get quregs "sigma_mu" []) alt'
                           (get quregs "keep" []) flag)) e) as [-> ->].
    split; [by eexists |]. by rewrite length_five_steps_take.
Qed.

(** X5. With the required bindings and a first selection register, what
    the generator yields is always an initial part of the five steps, in
    their order, and it ends normally exactly when it has yielded all of
    them. *)
Theorem decompose_from_registers_prefix
    (check : Operation -> option exn) (self : StatePreparationAliasSampling)
    (quregs : gmap string (list Qid)) (selection flag alt' : list Qid)
    (r : SelectionRegister) (rs : list SelectionRegister) :
  quregs !! "selection"%string = Some selection ->
  quregs !! "less_than_equal"%string = Some flag ->
  quregs !! "alt"%string = Some alt' ->
  selection_registers self = r :: rs ->
  yielded (decompose_from_registers check self quregs)
    `prefix_of` five_steps self (iteration_length r) selection
                  (get quregs "sigma_mu" []) alt' (get quregs "keep" []) flag
  /\ (raised (decompose_from_registers check self quregs) = None
      <-> yielded (decompose_from_registers check self quregs)
          = five_steps self (iteration_length r) selection
              (get quregs "sigma_mu" []) alt' (get quregs "keep" []) flag).
Proof.
  intros Hsel Hflag Halt Hregs.
  destruct (decompose_from_registers_shape check self quregs selection flag
              alt' r rs Hsel Hflag Halt Hregs)
    as [[_ ->]|(n & e & o & Hn & _ & _ & _ & ->)].
  - destruct (yielded_foldr_Yield (A:=unit)
                (five_steps self (iteration_length r) selection
                   (get quregs "sigma_mu" []) alt'
                   (get quregs "keep" []) flag) tt) as [-> ->].
    done.
  - destruct (yielded_foldr_Raise (A:=unit)
                (take n (five_steps self (iteration_length r) selection
                           (get quregs "sigma_mu" []) alt'
                           (get quregs "keep" []) flag)) e) as [-> ->].
    split; [apply prefix_take |]. split; [done |].
    intros Heq. apply (f_equal length) in Heq.
    rewrite length_five_steps_take in Heq by done. simpl in Heq. lia.
Qed.

Lemma decompose_from_registers_prefix_witness :
  yielded (decompose_from_registers check_widths example_gate mismatched_quregs)
    `prefix_of` five_steps example_gate 3 (qubits 0 2) (qubits 10 5)
                  (qubits 4 2) [] (qubits 8 1)
  /\ (raised (decompose_from_registers check_widths example_gate
                mismatched_quregs) = None
      <-> yielded (decompose_from_registers check_widths example_gate
                     mismatched_quregs)
          = five_steps example_gate 3 (qubits 0 2) (qubits 10 5)
              (qubits 4 2) [] (qubits 8 1)).
Proof.
  apply (decompose_from_registers_prefix check_widths example_gate
           mismatched_quregs (qubits 0 2) (qubits 8 1) (qubits 4 2)
           (SelectionRegister_ "selection" 2 3) []); reflexivity.
Defined.

(** X6. Every application that the generator yields was accepted by its
    gate: an application that raises is never yielded, on any gate and any
    bindings. *)
Theorem decompose_from_registers_yields_accepted
    (check : Operation -> option exn) (self : StatePreparationAliasSampling)
    (quregs : gmap string (list Qid)) :
  Forall (fun o => check o = None)
    (flatten_to_ops (yielded (decompose_from_registers check self quregs))).
Proof.
  destruct (first_missing quregs) as [k|] eqn:Hmiss.
  { rewrite (decompose_from_registers_missing check self quregs k) by done.
    constructor. }
  destruct (selection_registers self) as [|r rs] eqn:Hregs.
  { destruct (decompose_from_registers_no_selection_register check self quregs
                Hregs Hmiss) as [-> _].
    constructor. }
  apply first_missing_None in Hmiss
    as (selection & flag & alt' & Hsel & Hflag & Halt).
  destruct (decompose_from_registers_shape check self quregs selection flag
              alt' r rs Hsel Hflag Halt Hregs)
    as [[Hok ->]|(n & e & o & _ & _ & _ & Hok & ->)].
  - by destruct (yielded_foldr_Yield (A:=unit)
                  (five_steps self (iteration_length r) selection
                     (get quregs "sigma_mu" []) alt'
                     (get quregs "keep" []) flag) tt) as [-> _].
  - by destruct (yielded_foldr_Raise (A:=unit)
                  (take n (five_steps self (iteration_length r) selection
                             (get quregs "sigma_mu" []) alt'
                             (get quregs "keep" []) flag)) e) as [-> _].
Qed.

(** ** Bindings of the declared registers *)

(** X7. For a gate whose first selection register is named selection, and
    bindings of the declared widths for all its registers, the decomposition
    finds its five bindings; selection has the width of that register,
    sigma_mu and keep have [mu] qubits and the flag one, so that the
    comparison is applied to [2 * mu + 1] qubits; alt has as many qubits as
    all the selection registers together, hence as many as the selection
    binding it is exchanged with exactly when the other selection registers
    hold no bit. *)
Theorem declared_bindings_wiring (self : StatePreparationAliasSampling)
    (quregs : gmap string (list Qid))
    (r : SelectionRegister) (rs : list SelectionRegister) :
  selection_registers self = r :: rs ->
  name r = "selection"%string ->
  bindings_match self quregs = true ->
  exists selection sigma_mu alt' keep' flag,
    (quregs !! "selection"%string = Some selection
     /\ quregs !! "sigma_mu"%string = Some sigma_mu
     /\ quregs !! "alt"%string = Some alt'
     /\ quregs !! "keep"%string = Some keep'
     /\ quregs !! "less_than_equal"%string = Some flag)
    /\ Z.of_nat (length selection) = bitsize r
    /\ Z.of_nat (length sigma_mu) = mu self
    /\ Z.of_nat (length keep') = mu self
    /\ Z.of_nat (length flag) = 1
    /\ Z.of_nat (length (keep' ++ sigma_mu ++ flag)) = mu self + mu self + 1
    /\ Z.of_nat (length alt')
       = Z.of_nat (length selection) + total_bits (register <$> rs)
    /\ first_missing quregs = None.
Proof.
  intros Hregs Hname Hmatch.
  destruct (bindings_match_lookup self quregs r Hmatch)
    as (selection & Hsel & Hlsel).
  { rewrite Hregs. apply elem_of_app. left. rewrite fmap_cons. left. }
  rewrite Hname in Hsel.
  destruct (bindings_match_junk self quregs Hmatch)
    as (sigma_mu & alt' & keep' & flag
        & (Hsig & Halt & Hkeep & Hflag) & Hlsig & Hlalt & Hlkeep & Hlflag).
  exists selection, sigma_mu, alt', keep', flag.
  split; [done |]. split; [done |]. split; [done |]. split; [done |].
  split; [done |]. split; [rewrite !length_app; lia |]. split.
  - rewrite Hlalt, Hlsel. unfold alternates_bitsize, total_bits.
    rewrite Hregs. by rewrite !fmap_cons.
  - apply first_missing_None. by exists selection, flag, alt'.
Qed.

Lemma declared_bindings_wiring_witness :
  exists selection sigma_mu alt' keep' flag,
    (two_register_quregs !! "selection"%string = Some selection
     /\ two_register_quregs !! "sigma_mu"%string = Some sigma_mu
     /\ two_register_quregs !! "alt"%string = Some alt'
     /\ two_register_quregs !! "keep"%string = Some keep'
     /\ two_register_quregs !! "less_than_equal"%string = Some flag)
    /\ Z.of_nat (length selection) = 2
    /\ Z.of_nat (length sigma_mu) = 2
    /\ Z.of_nat (length keep') = 2
    /\ Z.of_nat (length flag) = 1
    /\ Z.of_nat (length (keep' ++ sigma_mu ++ flag)) = 2 + 2 + 1
    /\ Z.of_nat (length alt') = Z.of_nat (length selection) + 1
    /\ first_missing two_register_quregs = None.
Proof.
  apply (declared_bindings_wiring two_register_gate two_register_quregs
           (SelectionRegister_ "selection" 2 3)
           [SelectionRegister_ "spin" 1 2]); reflexivity.
Defined.

(** X8. The decomposition looks for the key selection whatever the
    selection registers of the gate are called: when no selection register
    has that name and the bindings are for declared registers only, it
    raises [KeyError] for selection before any step. *)
Theorem decompose_from_registers_needs_selection_key
    (check : Operation -> option exn) (self : StatePreparationAliasSampling)
    (quregs : gmap string (list Qid)) :
  (forall k, is_Some (quregs !! k) -> k ∈ declared_names self) ->
  "selection"%string ∉ name <$> (register <$> selection_registers self) ->
  yielded (decompose_from_registers check self quregs) = []
  /\ raised (decompose_from_registers check self quregs)
     = Some (KeyError "selection").
Proof.
  intros Hdecl Hname.
  assert (quregs !! "selection"%string = None) as Hnone.
  { apply eq_None_not_Some. intros Hsome%Hdecl.
    unfold declared_names in Hsome. rewrite fmap_app in Hsome.
    apply elem_of_app in Hsome as [Hsel|Hjunk]; [done |].
    apply list_elem_of_fmap in Hjunk as ([n b] & Hn & Hin).
    apply junk_registers_elem in Hin. cbn in Hn.
    by destruct Hin as [[-> _]|[[-> _]|[[-> _]|[-> _]]]]. }
  rewrite (decompose_from_registers_missing check self quregs "selection");
    [done |].
  unfold first_missing. cbn [find]. by rewrite bool_decide_true.
Qed.

Lemma decompose_from_registers_needs_selection_key_witness :
  bindings_match renamed_gate renamed_quregs = true
  /\ yielded (decompose_from_registers check_widths renamed_gate renamed_quregs)
     = []
  /\ raised (decompose_from_registers check_widths renamed_gate renamed_quregs)
     = Some (KeyError "selection").
Proof.
  split; [reflexivity |].
  apply (decompose_from_registers_needs_selection_key check_widths
           renamed_gate renamed_quregs).
  - intros k [v Hk]. unfold renamed_quregs in Hk.
    apply elem_of_list_to_map_2 in Hk. unfold declared_names. cbn.
    repeat (apply elem_of_cons in Hk as [[= -> _]|Hk];
            [repeat ((by left) || right) |]).
    by apply elem_of_nil in Hk.
  - cbn. intros Hin. apply elem_of_cons in Hin as [[=]|Hin].
    by apply elem_of_nil in Hin.
Defined.

(** ** The factory and the decomposition together *)



(** X10. The selection register of a factory-built gate always has room
    for its iteration length: it is named selection, iterates over the
    number [N] of coefficients, and [N <= 2^bitsize] holds for every [N],
    the register having no bit for one coefficient and one bit for none. *)
Theorem from_lcu_probs_selection_register {world float : Type}
    (pre : world -> list float -> float -> exn + (list Z * list Z * Z))
    (w : world) (p : list float) (e : float) (s : StatePreparationAliasSampling) :
  from_lcu_probs pre w p e = inr s ->
  selection_registers s
  = [SelectionRegister_ "selection" (bit_length (Z.of_nat (length p) - 1))
       (Z.of_nat (length p))]
  /\ 0 <= selection_bitsize s
  /\ Z.of_nat (length p) <= 2 ^ selection_bitsize s
  /\ (length p = 1%nat -> selection_bitsize s = 0)
  /\ (length p = 0%nat -> selection_bitsize s = 1).
Proof.
  intros (a & k & m & _ & ->)%from_lcu_probs_inr.
  rewrite selection_bitsize_init_one. cbn [SelectionRegister_ register bitsize].
  split; [done |].
  destruct (decide (length p = 0%nat)) as [Hz|Hnz].
  { rewrite Hz. by vm_compute. }
  assert (1 <= Z.of_nat (length p)) as HL by lia.
  rewrite bit_length_pred by done.
  destruct (ceil_log2_least _ HL) as (Hnn & Hle & _).
  split; [done |]. split; [done |]. split; [by intros -> | done].
Qed.

Lemma from_lcu_probs_selection_register_witness :
  selection_registers example_gate = [SelectionRegister_ "selection" 2 3]
  /\ 3 <= 2 ^ selection_bitsize example_gate.
Proof.
  destruct (from_lcu_probs_selection_register example_preprocess tt
              example_probs (1 # 100)%Q example_gate eq_refl)
    as (Hregs & _ & Hfits & _).
  split; [exact Hregs | exact Hfits].
Defined.

(** ** More on value equality *)

(** X11. Value equality is an equivalence relation on gates, and it is
    coarser than identity by the shapes of the two arrays only: two gates
    are the same value exactly when they are equal and their [alt] and
    [keep] arrays have the same shapes. *)
Theorem eq__equivalence :
  (forall s, eq_ s s = true)
  /\ (forall s1 s2, eq_ s1 s2 = eq_ s2 s1)
  /\ (forall s1 s2 s3,
        eq_ s1 s2 = true -> eq_ s2 s3 = true -> eq_ s1 s3 = true)
  /\ (forall s1 s2,
        s1 = s2
        <-> eq_ s1 s2 = true
            /\ shape (alt s1) = shape (alt s2)
            /\ shape (keep s1) = shape (keep s2)).
Proof.
  split; [| split; [| split]].
  - intros s. by apply eq__values.
  - intros s1 s2. unfold eq_. apply bool_decide_ext. split; by intros ->.
  - intros s1 s2 s3 H12%eq__values H23%eq__values.
    apply eq__values. by rewrite H12.
  - intros s1 s2. split.
    + intros ->. split; [by apply eq__values | done].
    + intros (Hv%eq__values & Ha & Hk).
      destruct s1 as [r1 [sa1 a1] [sk1 k1] m1], s2 as [r2 [sa2 a2] [sk2 k2] m2].
      unfold _value_equality_values_ in Hv. cbn in *. by simplify_eq.
Qed.

(** ** The selection registers in the decomposition *)

(** X12. The decomposition uses the selection registers of the gate only
    through the iteration length of the first one and their total number of
    bits: two gates that agree on these and on [alt], [keep] and [mu]
    decompose alike on every binding, whatever the names, the number and the
    other iteration lengths of their selection registers. *)
Theorem decompose_from_registers_selection_registers
    (check : Operation -> option exn) (s1 s2 : StatePreparationAliasSampling)
    (quregs : gmap string (list Qid))
    (r1 r2 : SelectionRegister) (rs1 rs2 : list SelectionRegister) :
  selection_registers s1 = r1 :: rs1 ->
  selection_registers s2 = r2 :: rs2 ->
  iteration_length r1 = iteration_length r2 ->
  selection_bitsize s1 = selection_bitsize s2 ->
  alt s1 = alt s2 -> keep s1 = keep s2 -> mu s1 = mu s2 ->
  decompose_from_registers check s1 quregs
  = decompose_from_registers check s2 quregs.
Proof.
  intros H1 H2 HL Hw Ha Hk Hm.
  unfold decompose_from_registers, keep_bitsize.
  fold (selection_bitsize s1). fold (selection_bitsize s2).
  unfold alternates_bitsize. fold (selection_bitsize s1).
  fold (selection_bitsize s2).
  by rewrite H1, H2, Hw, Ha, Hk, Hm; cbn; rewrite HL.
Qed.

Lemma decompose_from_registers_selection_registers_witness :
  decompose_from_registers check_widths example_gate example_quregs
  = decompose_from_registers check_widths
      (init (registers [SelectionRegister_ "p" 1 3;
                        SelectionRegister_ "q" 1 7])
            (np_array [1; 0; 1]) (np_array [2; 3; 1]) 2)
      example_quregs.
Proof.
  apply (decompose_from_registers_selection_registers check_widths
           example_gate _ example_quregs (SelectionRegister_ "selection" 2 3)
           (SelectionRegister_ "p" 1 3) [] [SelectionRegister_ "q" 1 7]);
    reflexivity.
Defined.
